(** * voice-idea-pilot: the iterative field-extraction-and-validation engine

    A shallow embedding of [src/backend/service.py] (the form schema, the
    extractor normalisation, the base and progressive validators, the
    merge step) and of the status rule of [src/backend/api_run.py].

    Modelling conventions.
    - A Python [dict] with string keys is a [gmap string _]: Python's
      [==] on dicts ignores insertion order, and so does [=] on [gmap].
      [Config.FORM_SCHEMA] is iterated in declaration order, so it is an
      association list.
    - A field value is [None] or a [str], as [FormFieldResponse]
      ([Optional[str]]) and the [ExtractFormFields] signature
      ([string|null]) declare.
    - A [str] is a Rocq [string]; its characters are read as the code
      points below 256, so [len] is [String.length].
    - A Python exception is a [Raise] result; the exceptions that the
      modelled functions can raise are listed in [exn]. *)

From Stdlib Require Import String Ascii List ZArith Lia Bool DecimalString.
From stdpp Require Import gmap strings list fin_maps.

(** ** Python values, exceptions, results *)

Inductive pyval : Type :=
| PNone
| PStr (s : string).

#[global] Instance pyval_eq_dec : EqDecision pyval.
Proof. solve_decision. Defined.

Inductive exn : Type :=
| TypeError
| AttributeError
| KeyError
| HTTPException.

Inductive result (A : Type) : Type :=
| Ok (a : A)
| Raise (e : exn).
Arguments Ok {A} a.
Arguments Raise {A} e.

#[global] Instance result_ret : MRet result := λ A a, Ok a.

#[global] Instance result_bind : MBind result := λ A B k r,
  match r with
  | Ok a => k a
  | Raise e => Raise e
  end.

#[global] Instance result_fmap : FMap result := λ A B f r,
  match r with
  | Ok a => Ok (f a)
  | Raise e => Raise e
  end.

(** [for x in xs: acc = body(acc, x)], where the body may raise. *)
Fixpoint for_each {A S} (body : S → A → result S) (xs : list A) (acc : S)
  : result S :=
  match xs with
  | [] => Ok acc
  | x :: xs' => acc' ← body acc x; for_each body xs' acc'
  end.

(** [key in d] *)
Definition contains {V} (d : gmap string V) (key : string) : bool :=
  match d !! key with Some _ => true | None => false end.

(** [d[key]] *)
Definition getitem {V} (d : gmap string V) (key : string) : result V :=
  match d !! key with Some v => Ok v | None => Raise KeyError end.

(** [d.get(key, dflt)]; [d.get(key)] is [d.get(key, None)]. *)
Definition get {V} (d : gmap string V) (key : string) (dflt : V) : V :=
  match d !! key with Some v => v | None => dflt end.

(** [v is None] and [v == None] agree on [None] and [str]. *)
Definition is_None (v : pyval) : bool :=
  match v with PNone => true | PStr _ => false end.

(** [str(v)] *)
Definition py_str (v : pyval) : string :=
  match v with PNone => "None" | PStr s => s end.

(** [len(v)]: [None] has no [len]. *)
Definition py_len (v : pyval) : result nat :=
  match v with
  | PNone => Raise TypeError
  | PStr s => Ok (String.length s)
  end.

(** [c.isdigit()] on the code points below 256: the ten decimal digits
    and the superscripts two, three (U+00B2, U+00B3) and one (U+00B9). *)
Definition isdigit (c : ascii) : bool :=
  let n := nat_of_ascii c in
  (((48 <=? n) && (n <=? 57)) || (n =? 178) || (n =? 179) || (n =? 185))%nat.

(** [any(c.isdigit() for c in v)]: [None] is not iterable. *)
Definition any_isdigit (v : pyval) : result bool :=
  match v with
  | PNone => Raise TypeError
  | PStr s => Ok (existsb isdigit (list_ascii_of_string s))
  end.

(** [s.replace(a, b)] for single characters. *)
Fixpoint replace_char (a b : ascii) (s : string) : string :=
  match s with
  | EmptyString => EmptyString
  | String c s' => String (if Ascii.eqb c a then b else c) (replace_char a b s')
  end.

(** The decimal rendering of a natural number inside an f-string. *)
Definition str_of_nat (n : nat) : string :=
  NilZero.string_of_uint (Nat.to_uint n).

(** [s.strip(chars)] and [s.strip()], as a predicate on the characters
    to remove from both ends. *)
Fixpoint lstrip_by (p : ascii → bool) (cs : list ascii) : list ascii :=
  match cs with
  | [] => []
  | c :: cs' => if p c then lstrip_by p cs' else cs
  end.

Definition strip_by (p : ascii → bool) (s : string) : string :=
  string_of_list_ascii
    (rev (lstrip_by p (rev (lstrip_by p (list_ascii_of_string s))))).

(** [c.isspace()] on the code points below 256. *)
Definition isspace (c : ascii) : bool :=
  let n := nat_of_ascii c in
  (((9 <=? n) && (n <=? 13)) || ((28 <=? n) && (n <=? 32))
   || (n =? 133) || (n =? 160))%nat.

Definition strip (s : string) : string := strip_by isspace s.

Definition strip_chars (chars s : string) : string :=
  strip_by (λ c, existsb (Ascii.eqb c) (list_ascii_of_string chars)) s.

(** ** Config.FORM_SCHEMA *)

Record field_config : Type := FieldConfig {
  description : string;
  required : bool;
  min_length : option nat;
  max_length : option nat;
  type : option string
}.

Module Config.

Definition FORM_SCHEMA : list (string * field_config) :=
  [ ("idea_title",
     FieldConfig "A concise, attention-grabbing title for the idea"
                 true None (Some 100) None);
    ("solution_details",
     FieldConfig "Detailed explanation of the proposed solution"
                 true (Some 50) None None);
    ("benefits_and_impact",
     FieldConfig "The potential benefits and impact of implementing this idea"
                 true (Some 30) None None);
    ("impact_measures",
     FieldConfig "How the impact will be measured (KPIs, metrics)"
                 true (Some 20) None None);
    ("scalability",
     FieldConfig "How the solution can be scaled (geographically, demographically)"
                 false None None None);
    ("target_audience",
     FieldConfig "Primary and secondary audiences who will benefit"
                 true None None None);
    ("relevant_entities",
     FieldConfig "Other organizations/departments that would need to be involved"
                 false None None None);
    ("feasibility_and_implementation",
     FieldConfig "Practical considerations for implementation (timeline, resources)"
                 true (Some 40) None None);
    ("attachments",
     FieldConfig "Any supporting documents or references"
                 false None None (Some "file")) ].

(** The keys of the schema, in declaration order ([for field in
    Config.FORM_SCHEMA]). *)
Definition schema_fields : list string := map fst FORM_SCHEMA.

End Config.

(** ** Validation verdicts *)

Record issue : Type := Issue {
  field : string;
  message : string
}.

#[global] Instance issue_eq_dec : EqDecision issue.
Proof. solve_decision. Defined.

Record verdict : Type := Verdict {
  missing_fields : list issue;
  quality_issues : list issue;
  suggestions : list issue
}.

Definition append_missing (results : verdict) (e : issue) : verdict :=
  Verdict (missing_fields results ++ [e]) (quality_issues results)
          (suggestions results).

Definition append_quality (results : verdict) (e : issue) : verdict :=
  Verdict (missing_fields results) (quality_issues results ++ [e])
          (suggestions results).

(** ** FormValidator.validate_fields *)

Module FormValidator.

Definition missing_entry (fld : string) (config : field_config) : issue :=
  Issue fld ("Missing required field: " +:+ description config).

(** One pass of the loop body: the two [if] statements in sequence.
    [extracted_fields[field]] is read under [field in extracted_fields],
    where it is [extracted_fields.get(field)]. *)
Definition validate_body (extracted_fields : gmap string pyval)
    (results : verdict) (item : string * field_config) : verdict :=
  let '(fld, config) := item in
  let results :=
    if required config && contains extracted_fields fld then
      if is_None (get extracted_fields fld PNone)
      then append_missing results (missing_entry fld config)
      else results
    else results in
  if required config && negb (contains extracted_fields fld)
  then append_missing results (missing_entry fld config)
  else results.

Definition validate_fields (extracted_fields : gmap string pyval) : verdict :=
  fold_left (validate_body extracted_fields) Config.FORM_SCHEMA
            (Verdict [] [] []).

End FormValidator.

(** ** IdeaFormProcessor.forward *)

(** A value decoded by [json.loads]. Only a JSON object decodes to a
    [dict]; its members are field values, [None] or [str]. The contents
    of the other shapes play no role. *)
Inductive json : Type :=
| JObject (members : gmap string pyval)
| JArray (items : list pyval)
| JString (s : string)
| JNumber (z : Z)
| JBool (b : bool)
| JNull.

(** The outcome of the call to [json.loads]. *)
Inductive loads_result : Type :=
| JSONDecodeError
| Loaded (raw_fields : json).

Module IdeaFormProcessor.

(** [raw_fields.get(field, None)]: only a [dict] has the method. *)
Definition raw_get (raw_fields : json) (fld : string) (dflt : pyval)
  : result pyval :=
  match raw_fields with
  | JObject members => Ok (get members fld dflt)
  | _ => Raise AttributeError
  end.

(** [{field: value(field) for field in keys}] *)
Definition dict_comprehension (value : string → result pyval)
    (keys : list string) : result (gmap string pyval) :=
  for_each (λ acc fld, v ← value fld; Ok (<[fld := v]> acc)) keys ∅.

(** The [try] block after the call to [json.loads], and the handler of
    [json.JSONDecodeError], the only exception that is caught. *)
Definition normalize (loaded : loads_result) : result (gmap string pyval) :=
  match loaded with
  | Loaded raw_fields =>
      dict_comprehension (λ fld, raw_get raw_fields fld PNone)
                         Config.schema_fields
  | JSONDecodeError =>
      dict_comprehension (λ _, Ok PNone) Config.schema_fields
  end.

Section Forward.
(** The language-model call ([self.extract_fields(...).form_fields])
    and [json.loads] are external to the repository. *)
Variable extract_fields : string → string.
Variable json_loads : string → loads_result.

Definition forward (idea_description : string)
  : result (gmap string pyval) :=
  let extraction := extract_fields idea_description in
  normalize (json_loads (strip (strip_chars "```" extraction))).
End Forward.

End IdeaFormProcessor.

(** ** IterativeIdeaSubmissionAssistant *)

Record round_result : Type := RoundResult {
  status : string;
  form_data : gmap string pyval;
  validation : verdict
}.

Module IterativeIdeaSubmissionAssistant.

(** The body of the merge loop. [field in new_extraction and (...)]
    guards the read [new_extraction[field]], so the lookup is done once. *)
Definition update_body (current_fields new_extraction : gmap string pyval)
    (updated_fields : gmap string pyval) (fld : string)
  : gmap string pyval :=
  match new_extraction !! fld with
  | Some v =>
      if negb (contains current_fields fld)
         || is_None (get current_fields fld PNone)
         || (String.length (py_str (get current_fields fld (PStr "")))
             <? 20)%nat
      then <[fld := v]> updated_fields
      else updated_fields
  | None => updated_fields
  end.

(** The "smart merge" of [_update_fields], from
    [updated_fields = current_fields.copy()] to the [return]. *)
Definition merge_fields (current_fields new_extraction : gmap string pyval)
  : gmap string pyval :=
  fold_left (update_body current_fields new_extraction)
            Config.schema_fields current_fields.

Section Assistant.
Variable extract_fields : string → string.
Variable json_loads : string → loads_result.

Definition _update_fields (current_fields : gmap string pyval)
    (new_input : string) : result (gmap string pyval) :=
  new_extraction ← IdeaFormProcessor.forward extract_fields json_loads
                     new_input;
  Ok (merge_fields current_fields new_extraction).

(** [_generate_user_prompt] is also called here; it is pure, cannot
    raise on a verdict of [validate_fields], and its value is dropped. *)
Definition run_interactive_loop (transcript : string)
  : result round_result :=
  current_fields ← IdeaFormProcessor.forward extract_fields json_loads
                     transcript;
  let validation := FormValidator.validate_fields current_fields in
  Ok (RoundResult
        (if bool_decide (missing_fields validation = [])
         then "complete" else "incomplete")
        current_fields validation).
End Assistant.

End IterativeIdeaSubmissionAssistant.

(** ** ProgressiveFormValidator.validate_fields *)

Module ProgressiveFormValidator.

Definition min_length_entry (fld : string) (n : nat) : issue :=
  Issue fld ("Please provide at least " +:+ str_of_nat n
             +:+ " characters for " +:+ replace_char "_" " " fld).

Definition number_entry : issue :=
  Issue "impact_measures" "Please include specific numbers or metrics".

(** The body of the minimum-length loop. *)
Definition min_length_body (extracted_fields : gmap string pyval)
    (results : verdict) (item : string * field_config) : result verdict :=
  let '(fld, config) := item in
  match min_length config with
  | Some n =>
      if contains extracted_fields fld then
        v ← getitem extracted_fields fld;
        l ← py_len v;
        if (l <? n)%nat
        then Ok (append_quality results (min_length_entry fld n))
        else Ok results
      else Ok results
  | None => Ok results
  end.

Definition validate_fields (extracted_fields : gmap string pyval)
    (iteration : Z) : result verdict :=
  let results := FormValidator.validate_fields extracted_fields in
  results ← (if (iteration >? 0)%Z
             then for_each (min_length_body extracted_fields)
                           Config.FORM_SCHEMA results
             else Ok results);
  if (iteration >? 1)%Z && contains extracted_fields "impact_measures" then
    v ← getitem extracted_fields "impact_measures";
    has_digit ← any_isdigit v;
    if negb has_digit
    then Ok (append_quality results number_entry)
    else Ok results
  else Ok results.

End ProgressiveFormValidator.

(** ** api_run.py: the two round endpoints *)

Record api_response : Type := APIResponse {
  api_status : string;
  api_form_data : gmap string pyval;
  api_missing_fields : list string
}.

Section Endpoints.
Variable extract_fields : string → string.
Variable json_loads : string → loads_result.

(** [start_submission] without audio: an empty text is refused, and
    the status is the one that [run_interactive_loop] returns. The
    handler re-raises whatever is raised as an HTTP error. *)
Definition start_submission (text : string) : result api_response :=
  res ← (if bool_decide (text = "") then Raise HTTPException
         else IterativeIdeaSubmissionAssistant.run_interactive_loop
                extract_fields json_loads text);
  Ok (APIResponse (status res) (form_data res)
                  (map field (missing_fields (validation res)))).

(** [provide_clarification] without audio, on the [current_fields] of
    the session. *)
Definition provide_clarification (current_fields : gmap string pyval)
    (text : string) : result api_response :=
  updated_fields ← IterativeIdeaSubmissionAssistant._update_fields
                     extract_fields json_loads current_fields text;
  let validation := FormValidator.validate_fields updated_fields in
  let status := if bool_decide (missing_fields validation = [])
                then "complete" else "needs_clarification" in
  Ok (APIResponse status updated_fields
                  (map field (missing_fields validation))).
End Endpoints.

(** ** IdeaFormProcessor._validate_field_lengths *)

(** The line feed of the Python literals. *)
Definition LF : string := String (ascii_of_nat 10) EmptyString.

(** [Config.FORM_SCHEMA] as the [dict] it is, for [field in
    Config.FORM_SCHEMA] and [Config.FORM_SCHEMA[field]]. *)
Definition schema_config (fld : string) : option field_config :=
  (list_to_map Config.FORM_SCHEMA : gmap string field_config) !! fld.

(** [s[:stop]]: a negative [stop] counts from the end. *)
Definition slice_to (s : string) (stop : Z) : string :=
  let stop := if (stop <? 0)%Z
              then Z.max 0 (Z.of_nat (String.length s) + stop)
              else stop in
  substring 0 (Z.to_nat stop) s.

(** The body of the loop over [fields.items()]. *)
Definition validate_lengths_body (fld : string) (value : pyval)
    (validated : gmap string pyval) : gmap string pyval :=
  match schema_config fld with
  | Some config =>
      match value with
      | PStr s =>
          let s :=
            match max_length config with
            | Some n =>
                if (n <? String.length s)%nat
                then slice_to s (Z.of_nat n - 3) +:+ "..."
                else s
            | None => s
            end in
          <[fld := PStr s]> validated
      | PNone => validated
      end
  | None => validated
  end.

(** The keys of a [dict] are distinct, so the order of the loop over
    [fields.items()] does not show in the [dict] that is built. *)
Definition _validate_field_lengths (fields : gmap string pyval)
  : gmap string pyval :=
  map_fold validate_lengths_body ∅ fields.

(** ** FormValidator.generate_clarification_prompt *)

(** [for item in items: prompt += f"- {item['message']}\n"] *)
Definition add_bullets (prompt : string) (items : list issue) : string :=
  fold_left (λ prompt item, prompt +:+ "- " +:+ message item +:+ LF)
            items prompt.

Definition generate_clarification_prompt (validation_results : verdict)
  : string :=
  let prompt := "To improve your submission:" +:+ LF in
  let prompt :=
    match missing_fields validation_results with
    | [] => prompt
    | items => add_bullets (prompt +:+ LF +:+ "Please provide:" +:+ LF) items
    end in
  let prompt :=
    match quality_issues validation_results with
    | [] => prompt
    | items =>
        add_bullets (prompt +:+ LF +:+ "Some areas need more detail:" +:+ LF)
                    items
    end in
  let prompt :=
    match suggestions validation_results with
    | [] => prompt
    | items =>
        add_bullets (prompt +:+ LF +:+ "Suggestions for improvement:" +:+ LF)
                    items
    end in
  prompt +:+ LF +:+ "You can provide this information by voice or text.".

(** ** IterativeIdeaSubmissionAssistant._generate_user_prompt *)

(** [enumerate(items, start)] *)
Definition enumerate {A} (items : list A) (start : nat) : list (nat * A) :=
  combine (seq start (length items)) items.

(** [Config.FORM_SCHEMA[field]] *)
Definition schema_getitem (fld : string) : result field_config :=
  match schema_config fld with
  | Some config => Ok config
  | None => Raise KeyError
  end.

(** The body of the loop over the missing fields:
    [prompt += f"{i}. {Config.FORM_SCHEMA[item['field']]['description']}\n"] *)
Definition missing_line (prompt : string) (entry : nat * issue)
  : result string :=
  let '(i, item) := entry in
  config ← schema_getitem (field item);
  Ok (prompt +:+ str_of_nat i +:+ ". " +:+ description config +:+ LF).

(** The two headings start with a pictograph outside the code points
    below 256; the prompt is only concatenated, and they are written as
    their UTF-8 bytes. *)
Definition _generate_user_prompt (validation_results : verdict)
  : result string :=
  let prompt := "Let's complete your submission:" +:+ LF in
  prompt ←
    match missing_fields validation_results with
    | [] => Ok prompt
    | items =>
        for_each missing_line (enumerate (take 3 items) 1)
                 (prompt +:+ LF +:+ "❌ Missing required information:" +:+ LF)
    end;
  let prompt :=
    match quality_issues validation_results with
    | [] => prompt
    | items =>
        fold_left
          (λ prompt '(i, item),
             prompt +:+ str_of_nat i +:+ ". " +:+ message item +:+ LF)
          (enumerate (take 2 items) 1)
          (prompt +:+ LF +:+ "⚠️ Needs improvement:" +:+ LF)
    end in
  Ok (prompt +:+ LF
        +:+ "Please provide this information (you can speak naturally):").

(** ** api_run.py: the endpoints on the session store *)

(** An entry of [sessions]. *)
Record session : Type := Session {
  current_fields : gmap string pyval;
  history : list (string * verdict)
}.

(** What a request gets: a response, or an [HTTPException] with its
    status code. *)
Inductive http (A : Type) : Type :=
| Respond (a : A)
| HTTPError (status_code : nat).
Arguments Respond {A} a.
Arguments HTTPError {A} status_code.

(** [APIResponse], with the session identifier and the message. *)
Record response : Type := Response {
  r_status : string;
  r_form_data : gmap string pyval;
  r_message : option string;
  r_missing_fields : option (list string);
  r_session_id : option string
}.

(** [str(text)] on an optional form value. *)
Definition str_of_optional (text : option string) : string :=
  match text with Some s => s | None => "None" end.

Module Api.
Section Api.
Variable extract_fields : string → string.
Variable json_loads : string → loads_result.

(** The [try] block of [start_submission] for a request without audio.
    [uuid4] is the identifier that [uuid.uuid4()] would give. *)
Definition start_submission_try (uuid4 : string)
    (sessions : gmap string session)
    (text session_id : option string)
  : result (response * gmap string session) :=
  let session_id :=
    match session_id with
    | Some s => if bool_decide (s = "") then uuid4 else s
    | None => uuid4
    end in
  res ← match text with
        | Some t =>
            if bool_decide (t = "") then Raise HTTPException
            else IterativeIdeaSubmissionAssistant.run_interactive_loop
                   extract_fields json_loads t
        | None => Raise HTTPException
        end;
  let sessions := <[session_id := Session (form_data res) []]> sessions in
  Ok (Response (status res) (form_data res) (Some "")
               (Some (map field (missing_fields (validation res))))
               (Some session_id),
      sessions).

(** [except Exception as e: raise HTTPException(status_code=500, ...)]:
    whatever the block raises, its own [HTTPException] included, leaves
    as a 500; the store is written only by a block that completes. *)
Definition handle {A} (sessions : gmap string session)
    (block : result (A * gmap string session))
  : http A * gmap string session :=
  match block with
  | Ok (a, sessions') => (Respond a, sessions')
  | Raise _ => (HTTPError 500, sessions)
  end.

Definition start_submission (uuid4 : string)
    (sessions : gmap string session) (text session_id : option string)
  : http response * gmap string session :=
  handle sessions (start_submission_try uuid4 sessions text session_id).

(** [session_id not in sessions]: [None] is never a key of the store. *)
Definition find_session (sessions : gmap string session)
    (session_id : option string) : option (string * session) :=
  match session_id with
  | Some id =>
      match sessions !! id with
      | Some session => Some (id, session)
      | None => None
      end
  | None => None
  end.

(** The [try] block of [provide_clarification] for a request without
    audio. *)
Definition provide_clarification_try (sessions : gmap string session)
    (text session_id : option string)
  : result (response * gmap string session) :=
  match find_session sessions session_id with
  | None => Raise HTTPException
  | Some (id, session) =>
      updated_fields ←
        IterativeIdeaSubmissionAssistant._update_fields
          extract_fields json_loads (current_fields session)
          (str_of_optional text);
      let validation := FormValidator.validate_fields updated_fields in
      let session :=
        Session updated_fields
                (history session ++ [(str_of_optional text, validation)]) in
      let status :=
        if bool_decide (missing_fields validation = [])
        then "complete" else "needs_clarification" in
      Ok (Response status updated_fields None
                   (Some (map field (missing_fields validation)))
                   (Some id),
          <[id := session]> sessions)
  end.

Definition provide_clarification (sessions : gmap string session)
    (text session_id : option string)
  : http response * gmap string session :=
  handle sessions (provide_clarification_try sessions text session_id).

(** [get_status]: outside any [try], the 404 reaches the client. *)
Definition get_status (sessions : gmap string session) (session_id : string)
  : http response :=
  match sessions !! session_id with
  | None => HTTPError 404
  | Some session =>
      let validation :=
        FormValidator.validate_fields (current_fields session) in
      Respond
        (Response
           (if bool_decide (missing_fields validation = [])
            then "complete" else "needs_clarification")
           (current_fields session) None None (Some session_id))
  end.
End Api.
End Api.

(** * Properties *)

(** ** Vocabulary of the statements *)

(** A field is absent from a mapping when [d.get(f)] is [None]: the key
    is missing, or its value is [None]. *)
Definition absent (d : gmap string pyval) (f : string) : Prop :=
  get d f PNone = PNone.

#[global] Instance absent_dec d f : Decision (absent d f).
Proof. unfold absent. apply _. Defined.

(** The value of a field that is not absent. *)
Definition value_of (d : gmap string pyval) (f : string) : option string :=
  match d !! f with
  | Some (PStr s) => Some s
  | _ => None
  end.

(** A fully-formed mapping has an entry for every schema field. *)
Definition fully_formed (d : gmap string pyval) : Prop :=
  Forall (λ f, is_Some (d !! f)) Config.schema_fields.

#[global] Instance fully_formed_dec d : Decision (fully_formed d).
Proof. unfold fully_formed. apply _. Defined.

(** Every schema field explicitly [None]: what the extractor returns when
    [json.loads] fails. *)
Definition all_None : gmap string pyval :=
  list_to_map (map (λ f, (f, PNone)) Config.schema_fields).

(** The schema entries that the base validator reports, in schema order:
    the required fields that are absent. *)
Definition reported (fs : gmap string pyval)
    (schema : list (string * field_config)) : list (string * field_config) :=
  filter (λ item, required item.2 ∧ absent fs item.1) schema.

(** The value that the merge loop writes for a field, when it writes. *)
Definition adopted (current incoming : gmap string pyval) (f : string)
  : option pyval :=
  match incoming !! f with
  | Some v =>
      match value_of current f with
      | None => Some v
      | Some s => if (String.length s <? 20)%nat then Some v else None
      end
  | None => None
  end.


(** The quality issue of a schema entry whose value is a string shorter
    than its declared minimum. *)
Definition too_short (fs : gmap string pyval) (item : string * field_config)
  : option issue :=
  match min_length item.2, fs !! item.1 with
  | Some n, Some (PStr s) =>
      if (String.length s <? n)%nat
      then Some (ProgressiveFormValidator.min_length_entry item.1 n)
      else None
  | _, _ => None
  end.

(** A schema entry on which [len] is applied to [None]. *)
Definition len_of_None (fs : gmap string pyval)
    (item : string * field_config) : Prop :=
  is_Some (min_length item.2) ∧ fs !! item.1 = Some PNone.

#[global] Instance len_of_None_dec fs item : Decision (len_of_None fs item).
Proof. unfold len_of_None. apply _. Defined.

(** The number issue is due: [impact_measures] is a string without a
    digit. *)
Definition lacks_number (fs : gmap string pyval) : bool :=
  match fs !! "impact_measures" with
  | Some (PStr s) => negb (existsb isdigit (list_ascii_of_string s))
  | _ => false
  end.

(** The quality issues of a verdict of the progressive validator that
    returns: the minimum-length issues in schema order, then the number
    issue. *)
Definition expected_quality (fs : gmap string pyval) (iteration : Z)
  : list issue :=
  (if (0 <? iteration)%Z then omap (too_short fs) Config.FORM_SCHEMA else [])
  ++ (if (1 <? iteration)%Z && lacks_number fs
      then [ProgressiveFormValidator.number_entry] else []).

(** A value of five characters for a field whose minimum is 20. *)
Definition five_chars : gmap string pyval :=
  {[ "impact_measures" := PStr "12345" ]}.

(** Inputs of the worked examples. *)
Definition short_title : gmap string pyval :=
  {[ "idea_title" := PStr "Hi" ]}.

Definition long_title : gmap string pyval :=
  {[ "idea_title" := PStr "A fully fleshed out thirty-character title" ]}.

Definition other_title : gmap string pyval :=
  <[ "idea_title" := PStr "Something else" ]> all_None.

(** Every field filled in at length, except [impact_measures], which was
    never extracted. *)
Definition no_measures : gmap string pyval :=
  <[ "impact_measures" := PNone ]>
    (list_to_map
       (map (λ f, (f, PStr "A sufficiently long answer, well over fifty characters in all."))
            Config.schema_fields)).

(** An answer for [impact_measures] only, as the extractor returns it. *)
Definition only_measures : gmap string pyval :=
  <[ "impact_measures" := PStr "It will help a lot" ]> all_None.

(** The names of the required schema fields, in schema order. *)
Definition required_fields : list string :=
  map fst (filter (λ item : string * field_config, required item.2)
                  Config.FORM_SCHEMA).

(** A field holds a string of at least 20 characters, which the merge
    retains. *)
Definition long_value (d : gmap string pyval) (f : string) : Prop :=
  ∃ s, d !! f = Some (PStr s) ∧ 20 ≤ String.length s.

(** A short title, and a full answer to every schema field. *)
Definition full_answer : gmap string pyval :=
  list_to_map
    (map (λ f, (f, PStr "A sufficiently long answer, well over fifty characters in all."))
         Config.schema_fields).

(** No field with a declared minimum length is [None]: the mappings on
    which the progressive validator can take every [len]. *)
Definition measurable (fs : gmap string pyval) : Prop :=
  Forall (λ item, ¬ len_of_None fs item) Config.FORM_SCHEMA.

#[global] Instance measurable_dec fs : Decision (measurable fs).
Proof. unfold measurable. apply _. Defined.

(** The string that [_validate_field_lengths] stores for a string
    value [s] of a field with configuration [config]. *)
Definition fitted (config : field_config) (s : string) : string :=
  match max_length config with
  | Some n =>
      if (n <? String.length s)%nat
      then slice_to s (Z.of_nat n - 3) +:+ "..."
      else s
  | None => s
  end.

(** A title of 103 characters, over the limit of 100. *)
Definition long_draft : gmap string pyval :=
  {[ "idea_title" :=
       PStr "0123456789012345678901234567890123456789012345678901234567890123456789012345678901234567890123456789XYZ";
     "scalability" := PNone;
     "unknown" := PStr "dropped" ]}.

(** The lines that [generate_clarification_prompt] writes for a list of
    items. *)
Definition bullet_lines (items : list issue) : string :=
  foldr (λ item rest, "- " +:+ message item +:+ LF +:+ rest) "" items.

(** Every session of the store holds a fully-formed mapping. *)
Definition sessions_fully_formed (sessions : gmap string session) : Prop :=
  map_Forall (λ _ s, fully_formed (current_fields s)) sessions.

(** A store with one session, whose title is long and whose other fields
    were never extracted. *)
Definition one_session : gmap string session :=
  {[ "s1" := Session (<[ "idea_title"
                         := PStr "A fully fleshed out thirty-character title" ]>
                        all_None) [] ]}.

(** Stand-ins for the two external calls in the worked examples: a
    model that answers with an object holding a title only, and a model
    whose answer cannot be decoded. *)
Definition title_only_loads (_ : string) : loads_result :=
  Loaded (JObject {[ "idea_title" := PStr "Something else" ]}).

Definition undecodable_loads (_ : string) : loads_result := JSONDecodeError.

Definition some_model (_ : string) : string := "model output".

(** ** The schema *)

Lemma schema_fields_NoDup : NoDup Config.schema_fields.
Proof. apply (bool_decide_unpack _). vm_compute. exact I. Qed.

(** ** FormValidator.validate_fields *)

Section BaseValidator.
Variable fs : gmap string pyval.

Lemma validate_body_eq results fld config :
  FormValidator.validate_body fs results (fld, config) =
  if decide (required config ∧ absent fs fld)
  then append_missing results (FormValidator.missing_entry fld config)
  else results.
Proof.
  unfold FormValidator.validate_body, absent, contains, get.
  destruct (decide _) as [[Hr Ha]|Hn];
    destruct (required config), (fs !! fld) as [[|s]|];
    simpl in *; try done; exfalso; apply Hn; done.
Qed.

Lemma validate_loop_eq schema results :
  fold_left (FormValidator.validate_body fs) schema results =
  Verdict (missing_fields results
             ++ map (λ item, FormValidator.missing_entry item.1 item.2)
                    (reported fs schema))
          (quality_issues results) (suggestions results).
Proof.
  unfold reported.
  revert results. induction schema as [|[fld config] schema IH]; intros results.
  - simpl. rewrite app_nil_r. by destruct results.
  - cbn [fold_left]. rewrite IH, validate_body_eq, filter_cons. simpl.
    case_decide; simpl; [|done].
    by rewrite <- app_assoc.
Qed.

Lemma validate_fields_eq :
  FormValidator.validate_fields fs =
  Verdict (map (λ item, FormValidator.missing_entry item.1 item.2)
               (reported fs Config.FORM_SCHEMA)) [] [].
Proof. unfold FormValidator.validate_fields. by rewrite validate_loop_eq. Qed.

Lemma reported_fields_sublist :
  map field (missing_fields (FormValidator.validate_fields fs))
    `sublist_of` Config.schema_fields.
Proof.
  rewrite validate_fields_eq. simpl. rewrite map_map. simpl.
  unfold Config.schema_fields, reported.
  change (map fst ?l) with (fst <$> l).
  apply fmap_sublist, sublist_filter.
Qed.
End BaseValidator.

(** C5. For every mapping of fields the base validator returns one
    missing-field entry, carrying the schema description, per required
    field whose value is absent ([None], or no key), in the declared
    order of the schema and without repetition; a field whose value is
    the empty string is not reported; no quality issue and no suggestion
    is ever produced. *)
Theorem base_validator_verdict (fs : gmap string pyval) :
  let v := FormValidator.validate_fields fs in
  missing_fields v =
    map (λ item, Issue item.1
                   ("Missing required field: " +:+ description item.2))
        (filter (λ item, required item.2 ∧ absent fs item.1)
                Config.FORM_SCHEMA)
  ∧ NoDup (map field (missing_fields v))
  ∧ (∀ f, f ∉ map field (missing_fields
                           (FormValidator.validate_fields
                              (<[f := PStr ""]> fs))))
  ∧ quality_issues v = []
  ∧ suggestions v = [].
Proof.
  cbv zeta. split_and!.
  - by rewrite validate_fields_eq.
  - eapply sublist_NoDup; [apply schema_fields_NoDup|].
    apply reported_fields_sublist.
  - intros f. rewrite validate_fields_eq. simpl. rewrite map_map. simpl.
    intros Hin. apply list_elem_of_In, in_map_iff in Hin.
    destruct Hin as ([f' c] & Hf & Hin). simpl in Hf. subst f'.
    apply list_elem_of_In in Hin. unfold reported in Hin.
    apply list_elem_of_filter in Hin as [[_ Habs] _].
    unfold absent, get in Habs. simpl in Habs.
    by rewrite lookup_insert_eq in Habs.
  - by rewrite validate_fields_eq.
  - by rewrite validate_fields_eq.
Qed.

(** ** The merge of [_update_fields] *)

Section Merge.
Variables current incoming : gmap string pyval.

Lemma update_body_eq updated f :
  IterativeIdeaSubmissionAssistant.update_body current incoming updated f =
  match adopted current incoming f with
  | Some v => <[f := v]> updated
  | None => updated
  end.
Proof.
  unfold IterativeIdeaSubmissionAssistant.update_body, adopted, value_of,
    contains, get.
  destruct (incoming !! f) as [v|]; [|done].
  destruct (current !! f) as [[|s]|]; simpl; [done| |done].
  by destruct (String.length s <? 20)%nat.
Qed.

(** The loop touches the keys it iterates over, and only those. *)
Lemma merge_loop_lookup keys updated f :
  fold_left (IterativeIdeaSubmissionAssistant.update_body current incoming)
            keys updated !! f =
  if decide (f ∈ keys)
  then match adopted current incoming f with
       | Some v => Some v
       | None => updated !! f
       end
  else updated !! f.
Proof.
  revert updated. induction keys as [|k keys IH]; intros updated.
  - by rewrite decide_False by apply not_elem_of_nil.
  - cbn [fold_left]. rewrite IH, update_body_eq.
    destruct (decide (k = f)) as [->|Hne].
    + rewrite (decide_True (P := f ∈ f :: keys)) by apply list_elem_of_here.
      destruct (adopted current incoming f) as [v|] eqn:Had.
      * rewrite lookup_insert_eq. by case_decide.
      * by case_decide.
    + assert (Hother :
        match adopted current incoming k with
        | Some v => <[k := v]> updated
        | None => updated
        end !! f = updated !! f).
      { destruct (adopted current incoming k); [|done].
        by rewrite lookup_insert_ne. }
      rewrite Hother.
      destruct (decide (f ∈ keys)) as [Hin|Hnin].
      * by rewrite decide_True by by apply list_elem_of_further.
      * rewrite decide_False; [done|].
        intros [?|?]%elem_of_cons; congruence.
Qed.

Lemma merge_fields_lookup f :
  IterativeIdeaSubmissionAssistant.merge_fields current incoming !! f =
  if decide (f ∈ Config.schema_fields)
  then match adopted current incoming f with
       | Some v => Some v
       | None => current !! f
       end
  else current !! f.
Proof. apply merge_loop_lookup. Qed.

Lemma merge_fields_long f s :
  current !! f = Some (PStr s) →
  20 ≤ String.length s →
  IterativeIdeaSubmissionAssistant.merge_fields current incoming !! f
  = Some (PStr s).
Proof.
  intros Hcur Hlen. rewrite merge_fields_lookup.
  case_decide; [|done].
  unfold adopted, value_of. rewrite Hcur.
  destruct (incoming !! f); [|done].
  by rewrite (proj2 (Nat.ltb_ge _ _)) by lia.
Qed.
End Merge.

Lemma merge_fields_same (fs : gmap string pyval) :
  IterativeIdeaSubmissionAssistant.merge_fields fs fs = fs.
Proof.
  apply map_eq. intros f. rewrite merge_fields_lookup.
  case_decide; [|done].
  unfold adopted. destruct (fs !! f) as [v|]; [|done].
  destruct (value_of fs f); [|done].
  by destruct (String.length _ <? 20)%nat.
Qed.

Lemma all_None_lookup f :
  all_None !! f = if decide (f ∈ Config.schema_fields) then Some PNone else None.
Proof.
  unfold all_None. case_decide as Hin.
  - apply elem_of_list_to_map_1'.
    + intros y Hy. apply list_elem_of_In, in_map_iff in Hy.
      destruct Hy as (f' & [= <- <-] & _). done.
    + apply list_elem_of_In, in_map_iff. exists f. split; [done|].
      by apply list_elem_of_In.
  - apply not_elem_of_list_to_map_1. rewrite <- list_fmap_compose.
    intros Hf. apply Hin. by rewrite list_fmap_id in Hf.
Qed.




(** C7. A current value that is a string of at least 20 characters is
    retained by the merge, for every field (so for every schema field)
    and every incoming mapping, whatever the incoming value is. *)
Theorem merge_retains_long_value
    (current incoming : gmap string pyval) (f s : string) :
  current !! f = Some (PStr s) →
  20 ≤ String.length s →
  IterativeIdeaSubmissionAssistant.merge_fields current incoming !! f
  = current !! f.
Proof.
  intros Hcur Hlen. rewrite Hcur. by apply merge_fields_long.
Qed.

Lemma merge_retains_long_value_witness :
  long_title !! "idea_title"
    = Some (PStr "A fully fleshed out thirty-character title")
  ∧ 20 ≤ String.length "A fully fleshed out thirty-character title"
  ∧ other_title !! "idea_title" = Some (PStr "Something else")
  ∧ IterativeIdeaSubmissionAssistant.merge_fields long_title other_title
      !! "idea_title" = long_title !! "idea_title".
Proof.
  assert (Hlen : 20 ≤ String.length "A fully fleshed out thirty-character title")
    by (simpl; lia).
  split_and!; [reflexivity|exact Hlen|reflexivity|].
  exact (merge_retains_long_value long_title other_title "idea_title"
           "A fully fleshed out thirty-character title" eq_refl Hlen).
Defined.

(** C8. Merging a fully-formed mapping with itself returns it unchanged
    (and so does merging any mapping with itself, [merge_fields_same]). *)
Theorem merge_idempotent_on_repeat (fs : gmap string pyval) :
  fully_formed fs →
  IterativeIdeaSubmissionAssistant.merge_fields fs fs = fs.
Proof. intros _. apply merge_fields_same. Qed.

Lemma merge_idempotent_on_repeat_witness :
  fully_formed only_measures
  ∧ IterativeIdeaSubmissionAssistant.merge_fields only_measures only_measures
    = only_measures.
Proof.
  assert (Hff : fully_formed only_measures)
    by (apply (bool_decide_unpack _); vm_compute; exact I).
  split; [exact Hff|].
  exact (merge_idempotent_on_repeat only_measures Hff).
Defined.

(** The merge leaves no schema key out when the incoming mapping has it. *)
Lemma merge_fields_is_Some (current incoming : gmap string pyval) f :
  f ∈ Config.schema_fields →
  is_Some (incoming !! f) →
  is_Some (IterativeIdeaSubmissionAssistant.merge_fields current incoming !! f).
Proof.
  intros Hin [v Hv].
  rewrite merge_fields_lookup, decide_True by done.
  unfold adopted, value_of. rewrite Hv.
  destruct (current !! f) as [[|s]|]; [by eexists..| |by eexists].
  destruct (String.length s <? 20)%nat; by eexists.
Qed.

(** C10. Whatever the current mapping is (keys may be missing), merging a
    fully-enumerated incoming mapping, such as the extractor returns,
    into it gives a mapping with an entry for every schema field. *)
Theorem merge_establishes_fully_formed
    (current incoming : gmap string pyval) :
  fully_formed incoming →
  fully_formed (IterativeIdeaSubmissionAssistant.merge_fields current incoming).
Proof.
  unfold fully_formed. rewrite !Forall_forall. intros Hinc f Hin.
  apply merge_fields_is_Some; [done|]. by apply Hinc.
Qed.

Lemma merge_establishes_fully_formed_witness :
  fully_formed all_None
  ∧ ¬ fully_formed short_title
  ∧ fully_formed
      (IterativeIdeaSubmissionAssistant.merge_fields short_title all_None).
Proof.
  assert (Hff : fully_formed all_None)
    by (apply (bool_decide_unpack _); vm_compute; exact I).
  split_and!; [exact Hff| |].
  - apply (bool_decide_unpack _). vm_compute. exact I.
  - exact (merge_establishes_fully_formed short_title all_None Hff).
Defined.

(** ** IdeaFormProcessor.forward *)

Lemma dict_comprehension_total (g : string → pyval) keys
    (acc : gmap string pyval) :
  for_each (λ acc fld, v ← Ok (g fld); Ok (<[fld := v]> acc)) keys acc =
  Ok (fold_left (λ acc fld, <[fld := g fld]> acc) keys acc).
Proof.
  revert acc. induction keys as [|k keys IH]; intros acc; [done|].
  simpl. apply IH.
Qed.

Lemma fold_insert_lookup (g : string → pyval) keys
    (acc : gmap string pyval) f :
  fold_left (λ acc fld, <[fld := g fld]> acc) keys acc !! f =
  if decide (f ∈ keys) then Some (g f) else acc !! f.
Proof.
  revert acc. induction keys as [|k keys IH]; intros acc.
  - by rewrite decide_False by apply not_elem_of_nil.
  - cbn [fold_left]. rewrite IH.
    destruct (decide (f ∈ keys)) as [Hin|Hnin].
    + by rewrite decide_True by by apply list_elem_of_further.
    + destruct (decide (k = f)) as [->|Hne].
      * rewrite lookup_insert_eq.
        by rewrite decide_True by apply list_elem_of_here.
      * rewrite lookup_insert_ne by done.
        rewrite decide_False; [done|].
        intros [?|?]%elem_of_cons; congruence.
Qed.

(** A JSON object is normalised to the schema keys: the members with a
    schema key are copied, the schema keys without a member are [None],
    the other members are dropped. *)
Lemma normalize_object (members : gmap string pyval) :
  ∃ d, IdeaFormProcessor.normalize (Loaded (JObject members)) = Ok d
       ∧ ∀ f, d !! f = if decide (f ∈ Config.schema_fields)
                       then Some (get members f PNone) else None.
Proof.
  eexists. split.
  - unfold IdeaFormProcessor.normalize, IdeaFormProcessor.dict_comprehension.
    apply (dict_comprehension_total (λ fld, get members fld PNone)).
  - intros f. rewrite fold_insert_lookup. by case_decide.
Qed.

(** The handler of [JSONDecodeError] returns every field as [None]. *)
Lemma normalize_decode_error :
  IdeaFormProcessor.normalize JSONDecodeError = Ok all_None.
Proof.
  unfold IdeaFormProcessor.normalize, IdeaFormProcessor.dict_comprehension.
  rewrite (dict_comprehension_total (λ _, PNone)).
  apply (f_equal Ok), map_eq. intros f.
  by rewrite fold_insert_lookup, all_None_lookup.
Qed.


(** Whatever the extractor returns is fully formed, with the schema
    fields for keys. *)
Lemma normalize_fully_formed loaded d :
  IdeaFormProcessor.normalize loaded = Ok d →
  fully_formed d ∧ ∀ f, is_Some (d !! f) ↔ f ∈ Config.schema_fields.
Proof.
  intros Hd.
  assert (Hkeys : ∀ f, is_Some (d !! f) ↔ f ∈ Config.schema_fields).
  { destruct loaded as [|raw_fields].
    - rewrite normalize_decode_error in Hd. injection Hd as <-.
      intros f. rewrite all_None_lookup.
      case_decide; [by split; [|eexists]|by split; [intros []|]].
    - destruct raw_fields as [members| | | | |]; try discriminate Hd.
      destruct (normalize_object members) as (d' & Hd' & Hlook).
      rewrite Hd' in Hd. injection Hd as <-.
      intros f. rewrite Hlook.
      case_decide; [by split; [|eexists]|by split; [intros []|]]. }
  split; [|done].
  unfold fully_formed. rewrite Forall_forall. intros f Hf. by apply Hkeys.
Qed.

(** C4, on the code. When the text returned by the language model is the
    JSON text of an array, here the empty one, [json.loads] succeeds,
    the decoded list has no [get], and [forward] raises [AttributeError]
    rather than returning a mapping. *)
Theorem forward_raises_on_json_array :
  IdeaFormProcessor.normalize (Loaded (JArray [])) = Raise AttributeError
  ∧ ∀ idea_description,
      IdeaFormProcessor.forward (λ _, "[]") (λ _, Loaded (JArray []))
                                idea_description
      = Raise AttributeError.
Proof. split; [reflexivity|intros idea_description; reflexivity]. Qed.

(** ** ProgressiveFormValidator.validate_fields *)

Section Progressive.
Variable fs : gmap string pyval.

Lemma min_length_body_returns results item :
  ¬ len_of_None fs item →
  ProgressiveFormValidator.min_length_body fs results item =
  Ok (match too_short fs item with
      | Some e => append_quality results e
      | None => results
      end).
Proof.
  destruct item as [fld config].
  unfold len_of_None, ProgressiveFormValidator.min_length_body, too_short,
    contains, getitem.
  simpl. intros Hnone.
  destruct (min_length config) as [n|]; [|done].
  destruct (fs !! fld) as [[|s]|]; simpl; [|by destruct (_ <? _)%nat|done].
  exfalso. apply Hnone. by split; [eexists|].
Qed.

Lemma min_length_body_raises results item :
  len_of_None fs item →
  ProgressiveFormValidator.min_length_body fs results item = Raise TypeError.
Proof.
  destruct item as [fld config].
  unfold len_of_None, ProgressiveFormValidator.min_length_body,
    contains, getitem.
  simpl. intros [[n ->] ->]. done.
Qed.

Lemma min_length_loop_returns schema results :
  Forall (λ item, ¬ len_of_None fs item) schema →
  for_each (ProgressiveFormValidator.min_length_body fs) schema results =
  Ok (Verdict (missing_fields results)
              (quality_issues results ++ omap (too_short fs) schema)
              (suggestions results)).
Proof.
  intros Hall. revert results.
  induction Hall as [|item schema Hitem _ IH]; intros results.
  - simpl. rewrite app_nil_r. by destruct results.
  - cbn [for_each]. rewrite min_length_body_returns by done.
    cbn [mbind result_bind]. rewrite IH. cbn [omap list_omap].
    destruct (too_short fs item) as [e|]; simpl; [|done].
    by rewrite <- app_assoc.
Qed.

Lemma min_length_loop_raises schema results :
  Exists (len_of_None fs) schema →
  for_each (ProgressiveFormValidator.min_length_body fs) schema results
  = Raise TypeError.
Proof.
  intros Hex. revert results.
  induction Hex as [item schema Hitem|item schema _ IH]; intros results.
  - cbn [for_each]. by rewrite min_length_body_raises.
  - cbn [for_each].
    destruct (decide (len_of_None fs item)) as [Hitem|Hitem].
    + by rewrite min_length_body_raises.
    + rewrite min_length_body_returns by done. apply IH.
Qed.

(** At iteration 0 (and below) no further check runs. *)
Lemma progressive_at_base iteration :
  (iteration ≤ 0)%Z →
  ProgressiveFormValidator.validate_fields fs iteration
  = Ok (FormValidator.validate_fields fs).
Proof.
  intros Hit. unfold ProgressiveFormValidator.validate_fields.
  assert ((iteration >? 0)%Z = false) as -> by lia.
  by assert ((iteration >? 1)%Z = false) as -> by lia.
Qed.
End Progressive.

(** The whole behaviour of the progressive validator: from iteration 1
    on it raises [TypeError] as soon as a field with a minimum length is
    [None]; otherwise it returns the verdict of the base validator with
    the quality issues of [expected_quality]. *)
Lemma progressive_validate_eq (fs : gmap string pyval) (iteration : Z) :
  ProgressiveFormValidator.validate_fields fs iteration =
  if decide ((0 < iteration)%Z ∧ Exists (len_of_None fs) Config.FORM_SCHEMA)
  then Raise TypeError
  else Ok (Verdict (missing_fields (FormValidator.validate_fields fs))
                   (expected_quality fs iteration) []).
Proof.
  destruct (decide (iteration ≤ 0)%Z) as [Hle|Hgt].
  { rewrite progressive_at_base by done.
    rewrite decide_False by lia. unfold expected_quality.
    assert ((0 <? iteration)%Z = false) as -> by lia.
    assert ((1 <? iteration)%Z = false) as -> by lia.
    by rewrite validate_fields_eq. }
  unfold ProgressiveFormValidator.validate_fields.
  assert ((iteration >? 0)%Z = true) as -> by lia.
  case_decide as Hex.
  { destruct Hex as [_ Hex]. by rewrite min_length_loop_raises. }
  assert (Hall : Forall (λ item, ¬ len_of_None fs item) Config.FORM_SCHEMA).
  { apply Forall_forall. intros item Hitem Hnone. apply Hex.
    split; [lia|]. apply Exists_exists. eauto. }
  rewrite min_length_loop_returns by done.
  rewrite validate_fields_eq. cbn [mbind result_bind missing_fields
    quality_issues suggestions app].
  unfold expected_quality.
  assert ((0 <? iteration)%Z = true) as -> by lia.
  rewrite Z.gtb_ltb.
  destruct (1 <? iteration)%Z; simpl; [|by rewrite app_nil_r].
  assert (Hm : fs !! "impact_measures" ≠ Some PNone).
  { intros Hm. rewrite Forall_forall in Hall.
    eapply (Hall ("impact_measures", _)).
    - do 3 apply list_elem_of_further. apply list_elem_of_here.
    - split; [by eexists|done]. }
  unfold contains, getitem, lacks_number.
  destruct (fs !! "impact_measures") as [[|s]|]; simpl;
    [done| |by rewrite app_nil_r].
  unfold append_quality. simpl.
  destruct (existsb isdigit (list_ascii_of_string s)); simpl;
    [by rewrite app_nil_r|done].
Qed.

(** Where two successive iterations both return, the later verdict
    extends the earlier one. *)
Lemma progressive_monotone_where_defined
    (fs : gmap string pyval) (n : Z) v v' :
  ProgressiveFormValidator.validate_fields fs n = Ok v →
  ProgressiveFormValidator.validate_fields fs (n + 1) = Ok v' →
  missing_fields v = missing_fields v'
  ∧ quality_issues v `sublist_of` quality_issues v'.
Proof.
  rewrite !progressive_validate_eq.
  repeat case_decide; try discriminate.
  intros [= <-] [= <-]. split; [done|]. simpl. unfold expected_quality.
  apply sublist_app.
  - destruct (0 <? n)%Z eqn:Hn.
    + by assert ((0 <? n + 1)%Z = true) as -> by lia.
    + apply sublist_nil_l.
  - destruct (1 <? n)%Z eqn:Hn.
    + by assert ((1 <? n + 1)%Z = true) as -> by lia.
    + apply sublist_nil_l.
Qed.

(** The escalation on a value of five characters against a minimum of
    20: no quality issue at iteration 0, exactly one at iteration 1. *)
Lemma five_chars_escalation :
  quality_issues <$> ProgressiveFormValidator.validate_fields five_chars 0
    = Ok []
  ∧ quality_issues <$> ProgressiveFormValidator.validate_fields five_chars 1
    = Ok [Issue "impact_measures"
            "Please provide at least 20 characters for impact measures"].
Proof. split; reflexivity. Qed.

(** C2, on the code. The mapping that the extractor returns when nothing
    could be extracted has every field absent; on it the progressive
    validator raises [TypeError] at every iteration from 1 on, where the
    claim has it return a verdict without quality issues. *)
Theorem progressive_raises_on_absent_field :
  IdeaFormProcessor.normalize JSONDecodeError = Ok all_None
  ∧ ∀ p : positive,
      ProgressiveFormValidator.validate_fields all_None (Z.pos p)
      = Raise TypeError.
Proof.
  split; [apply normalize_decode_error|].
  intros p. rewrite progressive_validate_eq, decide_True; [done|].
  split; [lia|].
  apply Exists_cons_tl, Exists_cons_hd. split; [by eexists|reflexivity].
Qed.

(** C6, on the code. With [impact_measures] a string without a digit and
    iteration 2 the number issue is due, but another field with a
    minimum length is absent and the call raises [TypeError] before the
    number check; with [impact_measures] itself absent the call raises
    as well, and the number check would too, since it iterates over the
    value. *)
Theorem number_check_raises_on_absent_field :
  IdeaFormProcessor.normalize
    (Loaded (JObject {[ "impact_measures" := PStr "It will help a lot" ]}))
    = Ok only_measures
  ∧ lacks_number only_measures = true
  ∧ ProgressiveFormValidator.validate_fields only_measures 2 = Raise TypeError
  ∧ ProgressiveFormValidator.validate_fields no_measures 2 = Raise TypeError
  ∧ any_isdigit PNone = Raise TypeError.
Proof. split_and!; reflexivity. Qed.

(** C9, on the code. On the all-absent mapping the verdict of iteration 0
    is the one of the base validator, with six missing-field entries;
    iteration 1 raises [TypeError] and produces none of them. *)
Theorem progressive_loses_entries_on_absent_field :
  ProgressiveFormValidator.validate_fields all_None 0
    = Ok (FormValidator.validate_fields all_None)
  ∧ length (missing_fields (FormValidator.validate_fields all_None)) = 6
  ∧ ProgressiveFormValidator.validate_fields all_None (0 + 1)
    = Raise TypeError.
Proof. split_and!; reflexivity. Qed.

(** ** The status of a round *)

Section Status.
Variable extract_fields : string → string.
Variable json_loads : string → loads_result.

Lemma missing_names_nil (v : verdict) :
  map field (missing_fields v) = [] ↔ missing_fields v = [].
Proof. by destruct (missing_fields v). Qed.

(** The first round answers ["complete"] or ["incomplete"]. *)
Lemma start_submission_status text resp :
  start_submission extract_fields json_loads text = Ok resp →
  api_missing_fields resp
    = map field (missing_fields
                   (FormValidator.validate_fields (api_form_data resp)))
  ∧ api_status resp
    = if bool_decide (api_missing_fields resp = [])
      then "complete" else "incomplete".
Proof.
  unfold start_submission,
    IterativeIdeaSubmissionAssistant.run_interactive_loop.
  case_bool_decide; [discriminate|].
  destruct (IdeaFormProcessor.forward _ _ _) as [d|e]; [|discriminate].
  simpl. intros [= <-]. simpl. split; [done|].
  by rewrite (bool_decide_ext _ _ (missing_names_nil _)).
Qed.

(** A clarification round answers ["complete"] or
    ["needs_clarification"]. *)
Lemma provide_clarification_status current_fields text resp :
  provide_clarification extract_fields json_loads current_fields text
    = Ok resp →
  api_missing_fields resp
    = map field (missing_fields
                   (FormValidator.validate_fields (api_form_data resp)))
  ∧ api_status resp
    = if bool_decide (api_missing_fields resp = [])
      then "complete" else "needs_clarification".
Proof.
  unfold provide_clarification,
    IterativeIdeaSubmissionAssistant._update_fields.
  destruct (IdeaFormProcessor.forward _ _ _) as [d|e]; [|discriminate].
  simpl. intros [= <-]. simpl. split; [done|].
  by rewrite (bool_decide_ext _ _ (missing_names_nil _)).
Qed.

(** A clarification round that returns hands back a fully-formed
    mapping, whatever the session held. *)
Lemma update_fields_fully_formed current_fields new_input updated_fields :
  IterativeIdeaSubmissionAssistant._update_fields extract_fields json_loads
    current_fields new_input = Ok updated_fields →
  fully_formed updated_fields.
Proof.
  unfold IterativeIdeaSubmissionAssistant._update_fields,
    IdeaFormProcessor.forward.
  destruct (IdeaFormProcessor.normalize _) as [d|e] eqn:Hd; [|discriminate].
  simpl. intros [= <-].
  apply normalize_fully_formed in Hd as [_ Hkeys].
  unfold fully_formed. rewrite Forall_forall. intros f Hin.
  apply merge_fields_is_Some; [done|]. by apply Hkeys.
Qed.
End Status.

(** C3, on the code. A first submission whose extraction cannot be
    decoded has every required field missing, and its status is
    ["incomplete"], not ["needs_clarification"]; the clarification round
    on the same fields answers ["needs_clarification"]. *)
Theorem initial_round_status_is_incomplete :
  api_status <$> start_submission (λ _, "not json") (λ _, JSONDecodeError)
                                  "my idea"
    = Ok "incomplete"
  ∧ api_status <$> provide_clarification (λ _, "not json")
                     (λ _, JSONDecodeError) all_None "more"
    = Ok "needs_clarification".
Proof. split; reflexivity. Qed.

(** * Further properties of the code *)

(** ** The merge *)

(** X1. The merge never drops a key and never invents a value: the keys
    of the result are those of the current mapping and the schema keys
    of the incoming one, and every entry of the result is the current
    entry or, for a schema field, the incoming entry. *)
Theorem merge_keys_and_entries (current incoming : gmap string pyval) :
  let merged :=
    IterativeIdeaSubmissionAssistant.merge_fields current incoming in
  dom merged
    = dom current ∪ (list_to_set Config.schema_fields ∩ dom incoming)
  ∧ ∀ f, merged !! f = current !! f
         ∨ (f ∈ Config.schema_fields ∧ is_Some (incoming !! f)
            ∧ merged !! f = incoming !! f).
Proof.
  cbv zeta.
  assert (Hentry : ∀ f,
    IterativeIdeaSubmissionAssistant.merge_fields current incoming !! f
      = current !! f
    ∨ (f ∈ Config.schema_fields ∧ is_Some (incoming !! f)
       ∧ IterativeIdeaSubmissionAssistant.merge_fields current incoming !! f
         = incoming !! f)).
  { intros f. rewrite merge_fields_lookup.
    case_decide as Hin; [|by left].
    unfold adopted. destruct (incoming !! f) as [v|]; [|by left].
    destruct (value_of current f) as [s|]; [|by right].
    destruct (String.length s <? 20)%nat; [by right|by left]. }
  split; [|exact Hentry].
  apply set_eq. intros f.
  rewrite elem_of_union, elem_of_intersection, elem_of_list_to_set,
    !elem_of_dom.
  split.
  - intros Hm. destruct (Hentry f) as [Heq|(Hin & Hinc & _)].
    + left. by rewrite <- Heq.
    + by right.
  - intros [Hcur|[Hin Hinc]].
    + destruct (Hentry f) as [->|(_ & Hinc & ->)]; done.
    + by apply merge_fields_is_Some.
Qed.

(** X2. Merging the same extraction a second time changes nothing. *)
Theorem merge_absorbs_repeat (current incoming : gmap string pyval) :
  IterativeIdeaSubmissionAssistant.merge_fields
    (IterativeIdeaSubmissionAssistant.merge_fields current incoming) incoming
  = IterativeIdeaSubmissionAssistant.merge_fields current incoming.
Proof.
  apply map_eq. intros f.
  rewrite (merge_fields_lookup _ incoming f).
  case_decide as Hin; [|done].
  destruct (adopted _ incoming f) as [v|] eqn:Hagain; [|done].
  rewrite merge_fields_lookup, decide_True by done.
  unfold adopted in Hagain |- *.
  destruct (incoming !! f) as [w|]; [|done].
  destruct (value_of current f) as [s|] eqn:Hcur.
  - destruct (String.length s <? 20)%nat eqn:Hlen.
    + destruct (value_of _ f); [|done].
      by destruct (_ <? _)%nat.
    + exfalso. unfold value_of in Hcur, Hagain.
      rewrite merge_fields_lookup, decide_True in Hagain by done.
      unfold adopted, value_of in Hagain.
      destruct (current !! f) as [[|s']|]; try done.
      injection Hcur as ->.
      destruct (incoming !! f); rewrite ?Hlen in Hagain; simpl in Hagain;
        by rewrite ?Hlen in Hagain.
  - destruct (value_of _ f); [|done].
    by destruct (_ <? _)%nat.
Qed.

(** X3. Merging the all-[None] mapping, which the extractor returns when
    the model output is not JSON, erases every schema field that is not
    a string of at least 20 characters, and keeps the others. *)
Theorem merge_of_failed_extraction (current : gmap string pyval) (f : string) :
  f ∈ Config.schema_fields →
  value_of (IterativeIdeaSubmissionAssistant.merge_fields current all_None) f
  = match value_of current f with
    | Some s => if (String.length s <? 20)%nat then None else Some s
    | None => None
    end.
Proof.
  intros Hin. unfold value_of at 1.
  rewrite merge_fields_lookup, decide_True by done.
  unfold adopted. rewrite all_None_lookup, decide_True by done.
  destruct (value_of current f) as [s|] eqn:Hcur; [|done].
  destruct (String.length s <? 20)%nat; [done|].
  unfold value_of in Hcur. by destruct (current !! f) as [[|?]|]; simplify_eq.
Qed.

Lemma merge_of_failed_extraction_witness :
  "idea_title" ∈ Config.schema_fields
  ∧ value_of (IterativeIdeaSubmissionAssistant.merge_fields short_title
                all_None) "idea_title" = None.
Proof.
  assert (Hin : "idea_title" ∈ Config.schema_fields)
    by apply list_elem_of_here.
  split; [exact Hin|].
  exact (eq_trans (merge_of_failed_extraction short_title "idea_title" Hin)
                  eq_refl).
Defined.

(** ** The base validator *)

Lemma absent_iff_no_value (fs : gmap string pyval) f :
  absent fs f ↔ ¬ is_Some (value_of fs f).
Proof.
  unfold absent, get, value_of.
  destruct (fs !! f) as [[|s]|]; simpl; split; try done;
    try (by intros _ [? ?]).
  intros Hno. destruct Hno. by eexists.
Qed.

Lemma reported_nil_iff (fs : gmap string pyval) schema :
  reported fs schema = [] ↔
  Forall (λ f, is_Some (value_of fs f))
         (map fst (filter (λ item : string * field_config, required item.2)
                          schema)).
Proof.
  unfold reported. induction schema as [|[f c] schema IH]; [done|].
  rewrite !filter_cons. simpl.
  destruct (decide (required c)) as [Hreq|Hreq].
  - simpl. rewrite Forall_cons, <- IH. clear IH.
    destruct (decide (required c ∧ absent fs f)) as [[_ Habs]|Hno].
    + split; [done|]. intros [Hval _].
      by apply absent_iff_no_value in Habs.
    + split; [|by intros [_ ?]]. intros Hnil. split; [|done].
      destruct (decide (is_Some (value_of fs f))) as [|Hval]; [done|].
      destruct Hno. split; [done|]. by apply absent_iff_no_value.
  - rewrite decide_False by (by intros [? _]). apply IH.
Qed.

Lemma required_fields_in_schema f :
  f ∈ required_fields → f ∈ Config.schema_fields.
Proof.
  unfold required_fields, Config.schema_fields.
  change (map fst ?l) with (fst <$> l).
  rewrite !list_elem_of_fmap. intros (item & -> & Hitem).
  apply list_elem_of_filter in Hitem as [_ Hitem]. eauto.
Qed.

Lemma filter_ext_elem_of {A} (P1 P2 : A → Prop)
    `{∀ x, Decision (P1 x)} `{∀ x, Decision (P2 x)} (l : list A) :
  (∀ x, x ∈ l → P1 x ↔ P2 x) → filter P1 l = filter P2 l.
Proof.
  induction l as [|x l IH]; intros Hext; [done|].
  rewrite !filter_cons.
  rewrite IH by (intros y Hy; apply Hext; by apply list_elem_of_further).
  destruct (decide (P1 x)) as [HP|HP], (decide (P2 x)) as [HQ|HQ];
    try done; exfalso; apply Hext in HP || apply Hext in HQ;
    try done; apply list_elem_of_here.
Qed.

(** X4. The verdict has no missing field exactly when every required
    field holds a string (the empty string included). *)
Theorem validator_complete_iff (fs : gmap string pyval) :
  missing_fields (FormValidator.validate_fields fs) = [] ↔
  Forall (λ f, is_Some (value_of fs f)) required_fields.
Proof.
  rewrite validate_fields_eq. simpl. unfold required_fields.
  rewrite <- reported_nil_iff.
  by destruct (reported fs Config.FORM_SCHEMA).
Qed.

(** X5. The verdict does not depend on the entries of the mapping other
    than the required fields: optional fields and keys outside the
    schema can be set to anything. *)
Theorem validator_ignores_other_keys
    (fs : gmap string pyval) (f : string) (v : pyval) :
  f ∉ required_fields →
  FormValidator.validate_fields (<[f := v]> fs)
  = FormValidator.validate_fields fs.
Proof.
  intros Hf. rewrite !validate_fields_eq. do 2 f_equal.
  unfold reported. apply filter_ext_elem_of.
  intros [f' c] Hitem. simpl.
  destruct (decide (f = f')) as [<-|Hne].
  - split; intros [Hreq _]; destruct Hf; unfold required_fields;
      change (map fst ?l) with (fst <$> l);
      apply list_elem_of_fmap; exists (f, c);
      (split; [done|by apply list_elem_of_filter]).
  - unfold absent, get. by rewrite lookup_insert_ne.
Qed.

Lemma validator_ignores_other_keys_witness :
  ("scalability" ∉ required_fields)
  ∧ FormValidator.validate_fields (<["scalability" := PNone]> full_answer)
    = FormValidator.validate_fields full_answer.
Proof.
  assert (Hf : "scalability" ∉ required_fields)
    by (apply (bool_decide_unpack _); vm_compute; exact I).
  split; [exact Hf|].
  exact (validator_ignores_other_keys full_answer "scalability" PNone Hf).
Defined.

(** X6. A clarification completes the form as soon as every required
    field either already holds a string of at least 20 characters or
    gets a string from the new extraction. *)
Theorem clarification_completes (current incoming : gmap string pyval) :
  Forall (λ f, long_value current f ∨ is_Some (value_of incoming f))
         required_fields →
  missing_fields
    (FormValidator.validate_fields
       (IterativeIdeaSubmissionAssistant.merge_fields current incoming))
  = [].
Proof.
  intros Hall. rewrite validate_fields_eq. simpl.
  apply (f_equal (map _) (y := [])), reported_nil_iff.
  fold required_fields. rewrite Forall_forall in Hall |- *.
  intros f Hreq. pose proof (Hall f Hreq) as Hcase.
  apply required_fields_in_schema in Hreq.
  unfold value_of at 1. rewrite merge_fields_lookup, decide_True by done.
  unfold adopted.
  destruct Hcase as [(s & Hcur & Hlen)|[t Hinc]].
  - unfold value_of. rewrite Hcur.
    rewrite (proj2 (Nat.ltb_ge _ _)) by lia.
    by destruct (incoming !! f).
  - unfold value_of in Hinc.
    destruct (incoming !! f) as [[|t']|] eqn:Hlook; try done.
    destruct (value_of current f) as [s|] eqn:Hcur; [|done].
    destruct (String.length s <? 20)%nat; [done|].
    unfold value_of in Hcur.
    by destruct (current !! f) as [[|?]|]; simplify_eq.
Qed.

Lemma clarification_completes_witness :
  Forall (λ f, long_value short_title f ∨ is_Some (value_of full_answer f))
         required_fields
  ∧ missing_fields
      (FormValidator.validate_fields
         (IterativeIdeaSubmissionAssistant.merge_fields short_title
            full_answer))
    = [].
Proof.
  assert (Hall : Forall (λ f, long_value short_title f
                              ∨ is_Some (value_of full_answer f))
                        required_fields).
  { assert (required_fields
            = ["idea_title"; "solution_details"; "benefits_and_impact";
               "impact_measures"; "target_audience";
               "feasibility_and_implementation"]) as -> by reflexivity.
    repeat (apply Forall_cons_2; [right; by eexists|]). apply Forall_nil_2. }
  split; [exact Hall|].
  exact (clarification_completes short_title full_answer Hall).
Defined.

(** ** The extractor *)


(** X8. From a JSON object the extractor keeps exactly the schema keys:
    each schema field gets the member of that name, or [None] when the
    object has none, and every other member is dropped. *)
Theorem normalize_object_entries (members : gmap string pyval) :
  ∃ d, IdeaFormProcessor.normalize (Loaded (JObject members)) = Ok d
       ∧ dom d = list_to_set Config.schema_fields
       ∧ Forall (λ f, d !! f = Some (get members f PNone))
                Config.schema_fields.
Proof.
  destruct (normalize_object members) as (d & Hd & Hlook).
  exists d. split_and!; [done| |].
  - apply set_eq. intros f.
    rewrite elem_of_dom, elem_of_list_to_set, Hlook.
    case_decide; [by split; [|eexists]|by split; [intros []|]].
  - apply Forall_forall. intros f Hf. by rewrite Hlook, decide_True.
Qed.

(** X9. What the extractor returns is a fixed point of its
    normalisation: fed back as a JSON object, it comes out unchanged. *)
Theorem normalize_round_trip (loaded : loads_result)
    (d : gmap string pyval) :
  IdeaFormProcessor.normalize loaded = Ok d →
  IdeaFormProcessor.normalize (Loaded (JObject d)) = Ok d.
Proof.
  intros Hd. apply normalize_fully_formed in Hd as [_ Hkeys].
  destruct (normalize_object d) as (d' & Hd' & Hlook).
  rewrite Hd'. f_equal. apply map_eq. intros f. rewrite Hlook.
  case_decide as Hin.
  - apply Hkeys in Hin as [v Hv]. unfold get. by rewrite Hv.
  - destruct (d !! f) eqn:Hf; [|done].
    destruct Hin. apply Hkeys. by eexists.
Qed.

Lemma normalize_round_trip_witness :
  IdeaFormProcessor.normalize
    (Loaded (JObject {[ "impact_measures" := PStr "It will help a lot" ]}))
    = Ok only_measures
  ∧ IdeaFormProcessor.normalize (Loaded (JObject only_measures))
    = Ok only_measures.
Proof.
  assert (Hd : IdeaFormProcessor.normalize
                 (Loaded (JObject {[ "impact_measures"
                                     := PStr "It will help a lot" ]}))
               = Ok only_measures) by reflexivity.
  split; [exact Hd|].
  exact (normalize_round_trip _ only_measures Hd).
Defined.

Lemma list_ascii_of_string_app (a b : string) :
  list_ascii_of_string (a +:+ b)
  = list_ascii_of_string a ++ list_ascii_of_string b.
Proof. induction a as [|c a IH]; [done|]. simpl. by rewrite IH. Qed.

Lemma lstrip_by_app_l (p : ascii → bool) pre l :
  Forall (λ c, p c = true) pre → lstrip_by p (pre ++ l) = lstrip_by p l.
Proof. induction 1 as [|c pre Hc _ IH]; [done|]. simpl. by rewrite Hc. Qed.

Lemma lstrip_by_app_r (p : ascii → bool) l post :
  Forall (λ c, p c = true) post →
  lstrip_by p (l ++ post)
  = match lstrip_by p l with [] => [] | l' => l' ++ post end.
Proof.
  intros Hpost. induction l as [|c l IH]; simpl.
  - rewrite <- (app_nil_r post). by rewrite lstrip_by_app_l.
  - by destruct (p c).
Qed.

Lemma strip_by_fence (p : ascii → bool) (pre s post : string) :
  Forall (λ c, p c = true) (list_ascii_of_string pre) →
  Forall (λ c, p c = true) (list_ascii_of_string post) →
  strip_by p (pre +:+ s +:+ post) = strip_by p s.
Proof.
  intros Hpre Hpost. unfold strip_by. f_equal.
  rewrite !list_ascii_of_string_app, lstrip_by_app_l by done.
  rewrite lstrip_by_app_r by done.
  destruct (lstrip_by p (list_ascii_of_string s)) as [|c l]; [done|].
  rewrite rev_app_distr, lstrip_by_app_l; [done|].
  apply Forall_forall. intros x Hx.
  rewrite Forall_forall in Hpost. apply Hpost.
  by apply list_elem_of_In, in_rev, list_elem_of_In.
Qed.

(** X10. A fence of backticks around the model output does not change
    what [forward] returns. *)
Theorem forward_ignores_fence (extract_fields : string → string)
    (json_loads : string → loads_result) (idea_description : string) :
  IdeaFormProcessor.forward (λ t, "```" +:+ extract_fields t +:+ "```")
                            json_loads idea_description
  = IdeaFormProcessor.forward extract_fields json_loads idea_description.
Proof.
  unfold IdeaFormProcessor.forward, strip_chars. cbv zeta.
  rewrite strip_by_fence; [done|by repeat constructor..].
Qed.

(** ** The progressive validator *)











(** ** IdeaFormProcessor._validate_field_lengths *)

Lemma string_length_app (a b : string) :
  String.length (a +:+ b) = String.length a + String.length b.
Proof. induction a as [|c a IH]; [done|]. simpl. by rewrite IH. Qed.

Lemma substring_0_length (k : nat) (s : string) :
  String.length (substring 0 k s) = k `min` String.length s.
Proof.
  revert k. induction s as [|c s IH]; intros [|k]; simpl; try done.
  by rewrite IH.
Qed.

Lemma schema_config_elem_of f config :
  schema_config f = Some config ↔ (f, config) ∈ Config.FORM_SCHEMA.
Proof.
  unfold schema_config. symmetry. apply elem_of_list_to_map.
  apply schema_fields_NoDup.
Qed.

Lemma schema_config_is_Some f :
  is_Some (schema_config f) ↔ f ∈ Config.schema_fields.
Proof.
  unfold Config.schema_fields. change (map fst ?l) with (fst <$> l).
  rewrite list_elem_of_fmap. split.
  - intros [config Hc%schema_config_elem_of]. by exists (f, config).
  - intros ([f' config] & -> & Hc). exists config.
    by apply schema_config_elem_of.
Qed.

(** Every declared maximum leaves room for the three dots. *)
Lemma schema_max_length f config n :
  schema_config f = Some config → max_length config = Some n → 3 ≤ n.
Proof.
  intros Hc%schema_config_elem_of Hn.
  assert (Hall : Forall (λ item : string * field_config,
                           ∀ n, max_length item.2 = Some n → 3 ≤ n)
                        Config.FORM_SCHEMA).
  { repeat (apply Forall_cons_2; [simpl; intros ? [= <-]; lia|]);
      repeat (apply Forall_cons_2; [by simpl|]); try apply Forall_nil_2.
    all: repeat (apply Forall_cons_2; [simpl; intros ? ?; simplify_eq; lia|]);
      apply Forall_nil_2. }
  rewrite Forall_forall in Hall. by apply (Hall _ Hc).
Qed.

Lemma fitted_length config s n :
  max_length config = Some n → 3 ≤ n →
  String.length (fitted config s) = n `min` String.length s.
Proof.
  intros Hn Hge. unfold fitted, slice_to. rewrite Hn.
  destruct (n <? String.length s)%nat eqn:Hlen.
  - apply Nat.ltb_lt in Hlen.
    assert ((Z.of_nat n - 3 <? 0)%Z = false) as -> by lia.
    rewrite string_length_app, substring_0_length. simpl. lia.
  - apply Nat.ltb_ge in Hlen. lia.
Qed.

Lemma fitted_fits config s :
  (∀ n, max_length config = Some n → String.length s ≤ n) →
  fitted config s = s.
Proof.
  intros Hfit. unfold fitted. destruct (max_length config) as [n|]; [|done].
  by rewrite (proj2 (Nat.ltb_ge _ _)) by by apply Hfit.
Qed.

Lemma validate_field_lengths_lookup (fields : gmap string pyval) f :
  _validate_field_lengths fields !! f =
  match schema_config f, fields !! f with
  | Some config, Some (PStr s) => Some (PStr (fitted config s))
  | _, _ => None
  end.
Proof.
  unfold _validate_field_lengths. revert f.
  apply (map_fold_weak_ind (λ validated fields, ∀ f,
    validated !! f = match schema_config f, fields !! f with
                     | Some config, Some (PStr s) =>
                         Some (PStr (fitted config s))
                     | _, _ => None
                     end)).
  - intros f. rewrite !lookup_empty. by destruct (schema_config f).
  - intros i x m r Hi IH f. unfold validate_lengths_body.
    destruct (decide (i = f)) as [->|Hne].
    + rewrite lookup_insert_eq. specialize (IH f). rewrite Hi in IH.
      destruct (schema_config f) as [config|]; [|done].
      destruct x as [|s]; [done|]. by rewrite lookup_insert_eq.
    + rewrite (lookup_insert_ne m) by done. rewrite <- IH.
      destruct (schema_config i) as [config|]; [|done].
      destruct x as [|s]; [done|]. by rewrite lookup_insert_ne.
Qed.

(** X15. [_validate_field_lengths] keeps exactly the schema fields that
    hold a string: fields that are [None] and keys outside the schema
    are dropped, and no value of the result is [None]. *)
Theorem validate_field_lengths_keys (fields : gmap string pyval)
    (f : string) :
  (is_Some (_validate_field_lengths fields !! f)
   ↔ f ∈ Config.schema_fields ∧ is_Some (value_of fields f))
  ∧ _validate_field_lengths fields !! f ≠ Some PNone.
Proof.
  rewrite validate_field_lengths_lookup, <- schema_config_is_Some.
  unfold value_of.
  destruct (schema_config f) as [config|], (fields !! f) as [[|s]|];
    (split; [split|]); try done; try (by intros [[? ?] [? ?]]);
    try (by intros [? ?]); by intros _; split; eexists.
Qed.

(** X16. Every string of the result respects the maximum length that the
    schema declares for its field. *)
Theorem validate_field_lengths_bound (fields : gmap string pyval)
    (f s : string) (config : field_config) (n : nat) :
  _validate_field_lengths fields !! f = Some (PStr s) →
  schema_config f = Some config →
  max_length config = Some n →
  String.length s ≤ n.
Proof.
  rewrite validate_field_lengths_lookup. intros Hout Hc Hn. rewrite Hc in Hout.
  destruct (fields !! f) as [[|s0]|]; try done.
  injection Hout as <-.
  rewrite (fitted_length _ _ n) by eauto using schema_max_length. lia.
Qed.

Lemma validate_field_lengths_bound_witness :
  (∃ s, _validate_field_lengths long_draft !! "idea_title" = Some (PStr s)
        ∧ String.length s ≤ 100)
  ∧ schema_config "idea_title"
    = Some (FieldConfig "A concise, attention-grabbing title for the idea"
                        true None (Some 100) None).
Proof.
  split; [|reflexivity].
  eexists. split; [reflexivity|].
  exact (validate_field_lengths_bound long_draft "idea_title" _ _ 100
           eq_refl eq_refl eq_refl).
Defined.

(** X17. A string of a schema field is stored as it is when it respects
    the declared maximum (or none is declared); a longer one is cut to
    its first [n - 3] characters followed by three dots, which makes
    exactly [n] characters. *)
Theorem validate_field_lengths_value (fields : gmap string pyval)
    (f s : string) (config : field_config) :
  fields !! f = Some (PStr s) →
  schema_config f = Some config →
  ∃ t, _validate_field_lengths fields !! f = Some (PStr t)
       ∧ match max_length config with
         | Some n =>
             if (n <? String.length s)%nat
             then t = substring 0 (n - 3) s +:+ "..." ∧ String.length t = n
             else t = s
         | None => t = s
         end.
Proof.
  intros Hf Hc. rewrite validate_field_lengths_lookup, Hc, Hf.
  eexists. split; [done|].
  destruct (max_length config) as [n|] eqn:Hn;
    [|by unfold fitted; rewrite Hn].
  pose proof (schema_max_length _ _ _ Hc Hn) as Hge.
  destruct (n <? String.length s)%nat eqn:Hlen.
  - split.
    + unfold fitted, slice_to. rewrite Hn, Hlen.
      assert ((Z.of_nat n - 3 <? 0)%Z = false) as -> by lia.
      do 2 f_equal. lia.
    + rewrite (fitted_length _ _ n) by done.
      apply Nat.ltb_lt in Hlen. lia.
  - unfold fitted. by rewrite Hn, Hlen.
Qed.

Lemma validate_field_lengths_value_witness :
  long_draft !! "idea_title"
    = Some (PStr "0123456789012345678901234567890123456789012345678901234567890123456789012345678901234567890123456789XYZ")
  ∧ ∃ t, _validate_field_lengths long_draft !! "idea_title" = Some (PStr t)
         ∧ t = substring 0 (100 - 3)
                 "0123456789012345678901234567890123456789012345678901234567890123456789012345678901234567890123456789XYZ"
               +:+ "..."
         ∧ String.length t = 100.
Proof.
  split; [reflexivity|].
  exact (validate_field_lengths_value long_draft "idea_title" _ _
           eq_refl eq_refl).
Defined.

(** X18. Applying [_validate_field_lengths] to its own result changes
    nothing. *)
Theorem validate_field_lengths_idempotent (fields : gmap string pyval) :
  _validate_field_lengths (_validate_field_lengths fields)
  = _validate_field_lengths fields.
Proof.
  apply map_eq. intros f.
  rewrite (validate_field_lengths_lookup (_validate_field_lengths fields)).
  rewrite validate_field_lengths_lookup.
  destruct (schema_config f) as [config|] eqn:Hc; [|done].
  destruct (fields !! f) as [[|s]|]; try done.
  do 2 f_equal. apply fitted_fits. intros n Hn.
  rewrite (fitted_length _ _ n) by eauto using schema_max_length. lia.
Qed.

(** ** The two prompts *)

Lemma string_app_assoc (a b c : string) : (a +:+ b) +:+ c = a +:+ b +:+ c.
Proof.
  induction a as [|x a IH]; [done|].
  change (String x ((a +:+ b) +:+ c) = String x (a +:+ b +:+ c)).
  by rewrite IH.
Qed.

Lemma string_app_nil_r (a : string) : a +:+ "" = a.
Proof.
  induction a as [|x a IH]; [done|].
  change (String x (a +:+ "") = String x a). by rewrite IH.
Qed.

Lemma add_bullets_eq prompt items :
  add_bullets prompt items = prompt +:+ bullet_lines items.
Proof.
  unfold add_bullets. revert prompt.
  induction items as [|item items IH]; intros prompt; simpl.
  - by rewrite string_app_nil_r.
  - rewrite IH. by rewrite !string_app_assoc.
Qed.

(** X19. On a verdict of the base validator the clarification prompt has
    the heading, then, when a field is missing, the section of the
    missing fields with one line per missing entry and no other section,
    then the closing line. *)
Theorem clarification_prompt_of_verdict (fs : gmap string pyval) :
  let missing := missing_fields (FormValidator.validate_fields fs) in
  generate_clarification_prompt (FormValidator.validate_fields fs)
  = "To improve your submission:" +:+ LF
    +:+ (if bool_decide (missing = []) then ""
         else LF +:+ "Please provide:" +:+ LF +:+ bullet_lines missing)
    +:+ LF +:+ "You can provide this information by voice or text.".
Proof.
  cbv zeta. unfold generate_clarification_prompt.
  rewrite validate_fields_eq. simpl.
  destruct (map _ (reported fs Config.FORM_SCHEMA)) as [|item items] eqn:Hm.
  - done.
  - rewrite bool_decide_eq_false_2 by done.
    rewrite add_bullets_eq.
    change (bullet_lines (item :: items))
      with ("- " +:+ message item +:+ LF +:+ bullet_lines items).
    by rewrite !string_app_assoc.
Qed.

Lemma missing_line_eq prompt i item :
  missing_line prompt (i, item) =
  match schema_config (field item) with
  | Some config =>
      Ok (prompt +:+ str_of_nat i +:+ ". " +:+ description config +:+ LF)
  | None => Raise KeyError
  end.
Proof.
  unfold missing_line, schema_getitem.
  by destruct (schema_config (field item)).
Qed.

Lemma user_prompt_loop (items : list issue) (start : nat) (prompt : string) :
  match for_each missing_line (enumerate items start) prompt with
  | Ok _ => Forall (λ e, field e ∈ Config.schema_fields) items
  | Raise e =>
      e = KeyError ∧ ¬ Forall (λ e, field e ∈ Config.schema_fields) items
  end.
Proof.
  revert start prompt.
  induction items as [|item items IH]; intros start prompt; [by simpl|].
  change (enumerate (item :: items) start)
    with ((start, item) :: enumerate items (S start)).
  cbn [for_each]. rewrite missing_line_eq.
  destruct (schema_config (field item)) as [config|] eqn:Hc.
  - cbn [mbind result_bind].
    assert (Hin : field item ∈ Config.schema_fields)
      by (apply schema_config_is_Some; by eexists).
    specialize (IH (S start)
      (prompt +:+ str_of_nat start +:+ ". " +:+ description config +:+ LF)).
    destruct (for_each _ _ _) as [p|e].
    + by apply Forall_cons_2.
    + destruct IH as [-> Hno]. split; [done|].
      intros [_ ?]%Forall_cons. by apply Hno.
  - cbn [mbind result_bind]. split; [done|].
    intros [Hin%schema_config_is_Some _]%Forall_cons.
    rewrite Hc in Hin. by destruct Hin.
Qed.

Lemma user_prompt_returns_iff (v : verdict) :
  (∃ prompt, _generate_user_prompt v = Ok prompt)
  ↔ Forall (λ e, field e ∈ Config.schema_fields)
           (take 3 (missing_fields v)).
Proof.
  unfold _generate_user_prompt. cbv zeta.
  destruct (missing_fields v) as [|item items] eqn:Hm.
  - cbn [mbind result_bind take].
    split; [by intros _; apply Forall_nil_2|by eexists].
  - pose proof (user_prompt_loop (take 3 (item :: items)) 1
        ("Let's complete your submission:" +:+ LF +:+ LF
         +:+ "❌ Missing required information:" +:+ LF)) as Hloop.
    destruct (for_each _ _ _) as [p|e].
    + cbn [mbind result_bind]. split; [done|by eexists].
    + destruct Hloop as [-> Hno]. cbn [mbind result_bind].
      split; [by intros [? ?]|done].
Qed.

(** X20. [_generate_user_prompt] returns a prompt exactly when the first
    three missing-field items name schema fields, and raises [KeyError]
    otherwise; items after the third are not looked up. *)
Theorem user_prompt_outcome (v : verdict) :
  ((∃ prompt, _generate_user_prompt v = Ok prompt)
   ↔ Forall (λ e, field e ∈ Config.schema_fields)
            (take 3 (missing_fields v)))
  ∧ (_generate_user_prompt v = Raise KeyError
     ↔ ¬ Forall (λ e, field e ∈ Config.schema_fields)
                (take 3 (missing_fields v))).
Proof.
  unfold _generate_user_prompt. cbv zeta.
  destruct (missing_fields v) as [|item items] eqn:Hm.
  - cbn [mbind result_bind take]. split.
    + split; [by intros _; apply Forall_nil_2|by eexists].
    + split; [done|]. intros Hno. destruct Hno. apply Forall_nil_2.
  - pose proof (user_prompt_loop (take 3 (item :: items)) 1
        ("Let's complete your submission:" +:+ LF +:+ LF
         +:+ "❌ Missing required information:" +:+ LF)) as Hloop.
    destruct (for_each _ _ _) as [p|e].
    + cbn [mbind result_bind]. split.
      * split; [done|by eexists].
      * split; [done|by intros []].
    + destruct Hloop as [-> Hno]. cbn [mbind result_bind]. split.
      * split; [by intros [? ?]|done].
      * done.
Qed.

(** X21. The prompt is computed without error on every verdict of the
    base validator and on every verdict that the progressive validator
    returns. *)
Theorem user_prompt_of_verdict (fs : gmap string pyval) (iteration : Z) :
  (∃ prompt,
     _generate_user_prompt (FormValidator.validate_fields fs) = Ok prompt)
  ∧ match ProgressiveFormValidator.validate_fields fs iteration with
    | Ok v => ∃ prompt, _generate_user_prompt v = Ok prompt
    | Raise _ => True
    end.
Proof.
  assert (Hbase : Forall (λ e, field e ∈ Config.schema_fields)
                         (missing_fields (FormValidator.validate_fields fs))).
  { apply Forall_forall. intros e He.
    assert (Hfield : field e
              ∈ map field (missing_fields (FormValidator.validate_fields fs)))
      by (apply list_elem_of_In, in_map, list_elem_of_In, He).
    eapply elem_of_sublist; [exact Hfield|apply reported_fields_sublist]. }
  assert (Hok : ∀ v,
    missing_fields v = missing_fields (FormValidator.validate_fields fs) →
    ∃ prompt, _generate_user_prompt v = Ok prompt).
  { intros v Hv. apply user_prompt_returns_iff.
    rewrite Hv. by apply Forall_take. }
  split; [by apply Hok|].
  rewrite progressive_validate_eq. case_decide; [done|]. by apply Hok.
Qed.

(** X22. The prompt depends on the first three missing-field items and
    the first two quality issues only. *)
Theorem user_prompt_truncates (v : verdict) :
  _generate_user_prompt v
  = _generate_user_prompt
      (Verdict (take 3 (missing_fields v)) (take 2 (quality_issues v)) []).
Proof.
  unfold _generate_user_prompt. simpl.
  destruct (missing_fields v) as [|m ms], (quality_issues v) as [|q qs];
    try done; cbn [take]; by rewrite ?take_idemp.
Qed.

(** ** The endpoints *)

Section ApiProperties.
Variable extract_fields : string → string.
Variable json_loads : string → loads_result.

(** X23. A clarification for a session that the store does not hold is
    answered with status 500, not 404, since the handler also catches
    the 404 raised inside its [try]; the store is unchanged. [get_status]
    answers 404. *)
Theorem unknown_session (sessions : gmap string session)
    (text : option string) (session_id : string) :
  sessions !! session_id = None →
  Api.provide_clarification extract_fields json_loads sessions text
                            (Some session_id)
    = (HTTPError 500, sessions)
  ∧ Api.get_status sessions session_id = HTTPError 404.
Proof.
  intros Hno.
  unfold Api.provide_clarification, Api.provide_clarification_try,
    Api.find_session, Api.get_status.
  by rewrite Hno.
Qed.

(** X24. After a first submission that succeeds, [get_status] on the
    returned session identifier shows the form data of the response, and
    the status ["complete"] if the response said so, and otherwise
    ["needs_clarification"] where the response said ["incomplete"]. *)
Theorem status_after_start (uuid4 : string) (sessions sessions' :
    gmap string session) (text session_id : option string) (r : response) :
  Api.start_submission extract_fields json_loads uuid4 sessions text
                       session_id
    = (Respond r, sessions') →
  ∃ id, r_session_id r = Some id
        ∧ Api.get_status sessions' id
          = Respond (Response
                       (if bool_decide (r_status r = "complete")
                        then "complete" else "needs_clarification")
                       (r_form_data r) None None (Some id)).
Proof.
  unfold Api.start_submission, Api.start_submission_try, Api.handle,
    IterativeIdeaSubmissionAssistant.run_interactive_loop.
  destruct text as [t|]; [|done].
  case_bool_decide; [done|].
  destruct (IdeaFormProcessor.forward _ _ _) as [d|e]; [|done].
  cbn [mbind result_bind status form_data validation].
  intros [= <- <-]. eexists. split; [done|].
  unfold Api.get_status. rewrite lookup_insert_eq. simpl.
  by destruct (bool_decide (missing_fields _ = [])).
Qed.

(** X25. After a clarification that succeeds, [get_status] on the same
    session shows the status and the form data of the response. *)
Theorem status_after_clarification (sessions sessions' :
    gmap string session) (text session_id : option string) (r : response) :
  Api.provide_clarification extract_fields json_loads sessions text
                            session_id
    = (Respond r, sessions') →
  ∃ id, r_session_id r = Some id
        ∧ Api.get_status sessions' id
          = Respond (Response (r_status r) (r_form_data r) None None
                              (Some id)).
Proof.
  unfold Api.provide_clarification, Api.provide_clarification_try,
    Api.handle.
  destruct (Api.find_session sessions session_id) as [[id old]|]; [|done].
  destruct (IterativeIdeaSubmissionAssistant._update_fields _ _ _ _)
    as [d|e]; [|done].
  cbn [mbind result_bind]. intros [= <- <-]. eexists. split; [done|].
  unfold Api.get_status. by rewrite lookup_insert_eq.
Qed.

(** X26. Both endpoints keep the store well formed: if every session
    holds a fully-formed mapping before a request, every session does
    after it, whether the request succeeds or fails. *)
Theorem endpoints_keep_sessions_fully_formed (uuid4 : string)
    (sessions : gmap string session) (text session_id : option string) :
  sessions_fully_formed sessions →
  sessions_fully_formed
    (Api.start_submission extract_fields json_loads uuid4 sessions text
                          session_id).2
  ∧ sessions_fully_formed
      (Api.provide_clarification extract_fields json_loads sessions text
                                 session_id).2.
Proof.
  intros Hwf. split.
  - unfold Api.start_submission, Api.start_submission_try, Api.handle,
      IterativeIdeaSubmissionAssistant.run_interactive_loop,
      IdeaFormProcessor.forward.
    destruct text as [t|]; [|done].
    case_bool_decide; [done|].
    destruct (IdeaFormProcessor.normalize _) as [d|e] eqn:Hd; [|done].
    cbn [mbind result_bind status form_data validation snd].
    apply map_Forall_insert_2; [|done].
    by apply normalize_fully_formed in Hd as [? _].
  - unfold Api.provide_clarification, Api.provide_clarification_try,
      Api.handle.
    destruct (Api.find_session sessions session_id) as [[id old]|]; [|done].
    destruct (IterativeIdeaSubmissionAssistant._update_fields _ _ _ _)
      as [d|e] eqn:Hd; [|done].
    cbn [mbind result_bind snd].
    apply map_Forall_insert_2; [|done].
    by apply update_fields_fully_formed in Hd.
Qed.


(** X28. The response to a clarification says ["complete"] exactly when
    every required field of its form data holds a string, and
    ["needs_clarification"] otherwise; its list of missing fields names
    the required fields that are absent, in schema order. *)
Theorem clarification_response (sessions : gmap string session)
    (text session_id : option string) :
  match Api.provide_clarification extract_fields json_loads sessions text
                                  session_id with
  | (Respond r, _) =>
      (r_status r = "complete"
       ↔ Forall (λ f, is_Some (value_of (r_form_data r) f)) required_fields)
      ∧ (r_status r = "complete" ∨ r_status r = "needs_clarification")
      ∧ r_missing_fields r
        = Some (filter (absent (r_form_data r)) required_fields)
  | (HTTPError _, _) => True
  end.
Proof.
  unfold Api.provide_clarification, Api.provide_clarification_try,
    Api.handle.
  destruct (Api.find_session sessions session_id) as [[id old]|]; [|done].
  destruct (IterativeIdeaSubmissionAssistant._update_fields _ _ _ _)
    as [d|e]; [|done].
  cbn [mbind result_bind r_status r_form_data r_missing_fields].
  split_and!.
  - unfold required_fields. rewrite <- reported_nil_iff.
    rewrite validate_fields_eq. simpl.
    destruct (reported d Config.FORM_SCHEMA);
      [by rewrite bool_decide_eq_true_2|by rewrite bool_decide_eq_false_2].
  - case_bool_decide; [by left|by right].
  - f_equal. rewrite validate_fields_eq. simpl. rewrite map_map. simpl.
    unfold reported, required_fields.
    generalize Config.FORM_SCHEMA. intros schema.
    induction schema as [|[f c] schema IH]; [done|].
    rewrite !filter_cons. simpl.
    destruct (decide (required c)) as [Hreq|Hreq].
    + simpl. rewrite filter_cons.
      destruct (decide (absent d f)) as [Habs|Habs].
      * rewrite decide_True by done. simpl. by rewrite IH.
      * by rewrite decide_False by (by intros [_ ?]).
    + by rewrite decide_False by (by intros [? _]).
Qed.

End ApiProperties.

Lemma unknown_session_witness :
  (∅ : gmap string session) !! "s1" = None
  ∧ Api.provide_clarification some_model title_only_loads ∅ (Some "more")
                              (Some "s1")
    = (HTTPError 500, ∅)
  ∧ Api.get_status ∅ "s1" = HTTPError 404.
Proof.
  split; [reflexivity|].
  exact (unknown_session some_model title_only_loads ∅ (Some "more") "s1"
           eq_refl).
Defined.

Lemma status_after_start_witness :
  ∃ r sessions',
    Api.start_submission some_model undecodable_loads "u1" ∅
                         (Some "my idea") None
      = (Respond r, sessions')
    ∧ ∃ id, r_session_id r = Some id
            ∧ Api.get_status sessions' id
              = Respond (Response
                           (if bool_decide (r_status r = "complete")
                            then "complete" else "needs_clarification")
                           (r_form_data r) None None (Some id)).
Proof.
  do 2 eexists. split; [reflexivity|].
  exact (status_after_start some_model undecodable_loads "u1" ∅ _
           (Some "my idea") None _ eq_refl).
Defined.

Lemma status_after_clarification_witness :
  ∃ r sessions',
    Api.provide_clarification some_model title_only_loads one_session
                              (Some "more") (Some "s1")
      = (Respond r, sessions')
    ∧ ∃ id, r_session_id r = Some id
            ∧ Api.get_status sessions' id
              = Respond (Response (r_status r) (r_form_data r) None None
                                  (Some id)).
Proof.
  do 2 eexists. split; [reflexivity|].
  exact (status_after_clarification some_model title_only_loads one_session
           _ (Some "more") (Some "s1") _ eq_refl).
Defined.

Lemma endpoints_keep_sessions_fully_formed_witness :
  sessions_fully_formed one_session
  ∧ sessions_fully_formed
      (Api.start_submission some_model undecodable_loads "u1" one_session
                            (Some "my idea") None).2
  ∧ sessions_fully_formed
      (Api.provide_clarification some_model undecodable_loads one_session
                                 (Some "my idea") None).2.
Proof.
  assert (Hwf : sessions_fully_formed one_session).
  { apply map_Forall_singleton.
    apply (bool_decide_unpack _). vm_compute. exact I. }
  split; [exact Hwf|].
  exact (endpoints_keep_sessions_fully_formed some_model undecodable_loads
           "u1" one_session (Some "my idea") None Hwf).
Defined.

